(** * Companion URL controller: [server/controllers/url.js]

    A shallow embedding of the controller that imports a file from a
    remote URL: [validateURL], [downloadURL] and the two express
    handlers [meta] and [get], together with the properties of the
    import pipeline that are stated about them.

    The controller is written against collaborators that live outside
    the file: the [validator] package, the [request] transport, the
    [Uploader] class, [getURLMeta] and the SSRF helpers.  Their calls
    are kept visible as effects; what they answer is an input of the
    model. *)

From Stdlib Require Import ZArith List String Ascii Bool Lia.
From Stdlib Require Import Numbers.DecimalString.
Import ListNotations.

Open Scope bool_scope.
Open Scope string_scope.
Open Scope Z_scope.
Open Scope list_scope.

(** ** JavaScript string primitives used by the controller *)

Module JSString.

(** [s.slice(n)] *)
Fixpoint drop (n : nat) (s : string) : string :=
  match n, s with
  | O, _ => s
  | S n', String _ s' => drop n' s'
  | S _, EmptyString => EmptyString
  end.

(** [s.startsWith(p)], i.e. [s.indexOf(p) === 0]. *)
Fixpoint startsWith (p s : string) : bool :=
  match p with
  | EmptyString => true
  | String a p' =>
      match s with
      | String b s' => Ascii.eqb a b && startsWith p' s'
      | EmptyString => false
      end
  end.

(** First occurrence of a separator: what [s.split(sep)] yields as
    [shift()] and as the re-joined remainder.  [None] when [sep] does not
    occur, i.e. when [s.split(sep).length] is 1. *)
Fixpoint split_first (sep s : string) : option (string * string) :=
  if startsWith sep s then Some (EmptyString, drop (String.length sep) s)
  else match s with
       | EmptyString => None
       | String c s' =>
           match split_first sep s' with
           | Some (a, b) => Some (String c a, b)
           | None => None
           end
       end.

(** [s.split(sep).shift()] *)
Definition before (sep s : string) : string :=
  match split_first sep s with
  | Some (a, _) => a
  | None => s
  end.

(** [s.split(c)] for a one-character separator. *)
Fixpoint split_char (c : ascii) (s : string) : list string :=
  match s with
  | EmptyString => [EmptyString]
  | String x s' =>
      if Ascii.eqb x c then EmptyString :: split_char c s'
      else match split_char c s' with
           | p :: ps => String x p :: ps
           | [] => [String x EmptyString]
           end
  end.

Definition code (c : ascii) : nat := nat_of_ascii c.

Definition between (lo hi : nat) (c : ascii) : bool :=
  (Nat.leb lo (code c)) && (Nat.leb (code c) hi).

Definition is_digit (c : ascii) : bool := between 48 57 c.
Definition is_lower (c : ascii) : bool := between 97 122 c.
Definition is_upper (c : ascii) : bool := between 65 90 c.
Definition is_alpha (c : ascii) : bool := is_lower c || is_upper c.

(** The ASCII members of the regular expression class [\s]. *)
Definition is_space (c : ascii) : bool :=
  between 9 13 c || Nat.eqb (code c) 32.

Definition lower_char (c : ascii) : ascii :=
  if is_upper c then ascii_of_nat (code c + 32) else c.

(** [s.toLowerCase()] on ASCII text. *)
Fixpoint toLowerCase (s : string) : string :=
  match s with
  | EmptyString => EmptyString
  | String c s' => String (lower_char c) (toLowerCase s')
  end.

Fixpoint forall_chars (p : ascii -> bool) (s : string) : bool :=
  match s with
  | EmptyString => true
  | String c s' => p c && forall_chars p s'
  end.

Fixpoint exists_char (p : ascii -> bool) (s : string) : bool :=
  match s with
  | EmptyString => false
  | String c s' => p c || exists_char p s'
  end.

Fixpoint last_char (s : string) : option ascii :=
  match s with
  | EmptyString => None
  | String c EmptyString => Some c
  | String _ s' => last_char s'
  end.

(** [parseInt(s, 10)] on a string of decimal digits. *)
Fixpoint digits_value_from (acc : N) (s : string) : N :=
  match s with
  | EmptyString => acc
  | String c s' =>
      digits_value_from (acc * 10 + N.of_nat (code c - 48))%N s'
  end.

Definition digits_value (s : string) : N := digits_value_from 0%N s.

(** Template-literal rendering of an integer. *)
Definition of_Z (z : Z) : string := NilEmpty.string_of_int (Z.to_int z).

End JSString.

(** ** The [validator] package

    [validator.isURL] is an npm dependency; its code is not part of the
    controller. *)

Module Validator.
Import JSString.

(** The options object the controller builds ([validURLOpts]). *)
Record url_options : Type := {
  protocols : list string;
  require_protocol : bool;
  require_tld : bool
}.

(** Modelled from the spec: [validator.isIP] is missing; one field of a
    numeric host is a decimal number of at most 255, written without a
    leading zero. *)
Definition isIPv4_field (p : string) : bool :=
  negb (String.eqb p "") && forall_chars is_digit p
  && Nat.leb (String.length p) 3
  && (N.leb (digits_value p) 255)
  && (String.eqb p "0" || negb (startsWith "0" p)).

(** Modelled from the spec: [validator.isIP] is missing; a numeric host is
    four dot-separated fields.  Bracketed IPv6 literals are not covered
    and count as no IP address. *)
Definition isIP (host : string) : bool :=
  match split_char "." host with
  | [a; b; c; d] =>
      isIPv4_field a && isIPv4_field b && isIPv4_field c && isIPv4_field d
  | _ => false
  end.

(** Modelled from the spec: [validator.isFQDN] is missing; the characters
    of a host name label, taken as ASCII text. *)
Definition is_label_char (c : ascii) : bool :=
  is_alpha c || is_digit c || Ascii.eqb c "-".

(** Modelled from the spec: [validator.isFQDN] is missing; a label is made
    of letters, digits and inner hyphens, at most 63 characters. *)
Definition is_label (p : string) : bool :=
  negb (String.eqb p "")
  && Nat.leb (String.length p) 63
  && forall_chars is_label_char p
  && negb (startsWith "-" p)
  && negb (match last_char p with Some c => Ascii.eqb c "-" | None => false end).

(** Modelled from the spec: [validator.isFQDN] is missing; a recognizable
    top-level label is two letters or more, or a punycode [xn--] label. *)
Definition is_tld (tld : string) : bool :=
  (Nat.leb 2 (String.length tld) && forall_chars is_alpha tld)
  || (startsWith "xn" (toLowerCase tld)
      && Nat.leb 4 (String.length tld)
      && forall_chars is_label_char (drop 2 tld)).

(** Modelled from the spec: [validator.isFQDN] is missing.  A domain is a
    dot-separated list of labels; its last label is not all digits; and,
    when [require_tld] holds, there are at least two labels and the last
    one is a recognizable top-level label. *)
Definition isFQDN (str : string) (options : url_options) : bool :=
  let parts := split_char "." str in
  let tld := List.last parts "" in
  if options.(require_tld) && (Nat.ltb (List.length parts) 2 || negb (is_tld tld))
  then false
  else if negb (String.eqb tld "") && forall_chars is_digit tld then false
  else forallb is_label parts.

(** Modelled from the spec: [validator.isURL] is missing; a port is a
    decimal number from 1 to 65535. *)
Definition valid_port (port_str : string) : bool :=
  forall_chars is_digit port_str
  && N.ltb 0 (digits_value port_str)
  && N.leb (digits_value port_str) 65535.

(** Modelled from the spec: [validator.isURL] is missing; credentials are
    [user] or [user:password], not empty. *)
Definition valid_auth (auth : string) : bool :=
  negb (String.eqb auth "")
  && Nat.leb (List.length (split_char ":" auth)) 2
  && negb (String.eqb auth ":").

(** Modelled from the spec: [validator.isURL] is missing; [host:port] with
    a numeric host or a domain name. *)
Definition valid_host_port (hostname : string) (options : url_options) : bool :=
  let '(host, port_str) :=
    match split_first ":" hostname with
    | Some (h, p) => (h, Some p)
    | None => (hostname, None)
    end in
  let port_ok :=
    match port_str with
    | Some p => String.eqb p "" || valid_port p
    | None => true
    end in
  port_ok && (isIP host || isFQDN host options).

(** Modelled from the spec: [validator.isURL] is missing; the part of a URL
    after its scheme, [auth@host:port/path], needs a host. *)
Definition valid_authority (rest : string) (options : url_options) : bool :=
  if String.eqb rest "" then false
  else
    let authority := before "/" rest in
    if String.eqb authority "" then false
    else match split_first "@" authority with
         | Some (auth, hostname) =>
             valid_auth auth && valid_host_port hostname options
         | None => valid_host_port authority options
         end.

(** Modelled from the spec: [validator.isURL] is missing; the fragment and
    the query are cut off before the scheme is looked for. *)
Definition strip_fragment_query (url : string) : string :=
  before "?" (before "#" url).

(** Modelled from the spec: [validator.isURL] is missing; the explicit
    scheme is the text before the first [://], lower-cased. *)
Definition scheme_split (url : string) : option (string * string) :=
  match split_first "://" (strip_fragment_query url) with
  | Some (p, rest) => Some (toLowerCase p, rest)
  | None => None
  end.

(** Modelled from the spec: [validator.isURL] is missing.  It accepts only
    URLs whose scheme is in [protocols]; with [require_protocol] a URL
    lacking an explicit scheme is invalid; with [require_tld] host names
    without a recognizable top-level label are rejected.  Empty input,
    input with white space or angle brackets and [mailto:] addresses are
    never URLs, and a scheme-less URL may not be protocol-relative. *)
Definition isURL (url : string) (options : url_options) : bool :=
  if String.eqb url ""
     || exists_char (fun c => is_space c || Ascii.eqb c "<" || Ascii.eqb c ">") url
  then false
  else if startsWith "mailto:" url then false
  else
    match scheme_split url with
    | Some (protocol, rest) =>
        if negb (existsb (String.eqb protocol) options.(protocols)) then false
        else valid_authority rest options
    | None =>
        if options.(require_protocol) then false
        else if startsWith "//" url then false
        else valid_authority (strip_fragment_query url) options
    end.

End Validator.

(** ** [validateURL] (url.js, lines 16-31) *)

(** The value of [req.body.url]: a string, or [undefined] when the field
    is absent. *)
Definition js_url : Type := option string.

(** [!url] *)
Definition falsy (url : js_url) : bool :=
  match url with
  | None => true
  | Some s => String.eqb s ""
  end.

Definition validURLOpts (debug : bool) : Validator.url_options :=
  {| Validator.protocols := ["http"; "https"];
     Validator.require_protocol := true;
     Validator.require_tld := negb debug |}.

Definition validateURL (url : js_url) (debug : bool) : bool :=
  if falsy url then false
  else
    match url with
    | Some s =>
        if negb (Validator.isURL s (validURLOpts debug)) then false
        else true
    | None => false
    end.

(** ** Values exchanged with the collaborators *)

(** A JavaScript [Error]: its message and the optional [status] property
    the handlers read. *)
Record Error : Type := {
  err_message : string;
  err_status : option Z
}.

(** A body fragment, as the transport hands it over. *)
Definition Chunk : Type := string.

(** JSON bodies are flat objects. *)
Inductive json_value : Type :=
| JNull
| JNumber (n : Z)
| JString (s : string).

Definition json : Type := list (string * json_value).

(** What [getURLMeta] resolves to. *)
Record urlMeta : Type := {
  type : option string;
  size : option Z
}.

Definition json_of_option {A : Type} (f : A -> json_value) (o : option A)
    : json_value :=
  match o with
  | Some a => f a
  | None => JNull
  end.

Definition json_of_urlMeta (m : urlMeta) : json :=
  [("type", json_of_option JString m.(type));
   ("size", json_of_option JNumber m.(size))].

(** What [uploader.getResponse()] returns. *)
Record response : Type := {
  status : Z;
  body : json
}.

(** The part of an [Uploader] instance the handler looks at. *)
Record uploader : Type := {
  hasError : bool;
  getResponse : response
}.

(** The express request: [req.id], [req.body.url] and
    [req.companion.options.debug]. *)
Record express_request : Type := {
  id : string;
  body_url : js_url;
  debug : bool
}.

(** The two SSRF protections, named by the helper call that builds them. *)
Inductive redirect_evaluator : Type :=
| getRedirectEvaluator (url : js_url) (blockLocalIPs : bool).

Inductive agent_class : Type :=
| getProtectedHttpAgent (protocol : string) (blockLocalIPs : bool).

(** The options object handed to [request] (url.js, lines 49-54). *)
Record request_opts : Type := {
  uri : js_url;
  method : string;
  followRedirect : redirect_evaluator;
  agentClass : agent_class
}.

(** The arrow function registered with [uploader.onSocketReady] (lines
    126-129); it closes over [req]. *)
Inductive callback : Type :=
| on_socket_ready (req : express_request).

(** Calls the controller makes on its collaborators, in program order. *)
Inductive effect : Type :=
| logger_debug (msg : string) (traceId : string)
| logger_error (err : Error) (tag : string) (traceId : string)
| res_status (code : Z)
| res_json (b : json)
| call_getURLMeta (url : js_url) (blockLocalIPs : bool)
| new_Uploader (sz : option Z)
| uploader_onSocketReady (cb : callback)
| request (opts : request_opts)
| onDataChunk (err : option Error) (chunk : option Chunk).

(** What the collaborators answer.  [getURLMeta] resolves or rejects;
    [new Uploader(Uploader.reqToOptions(req, size))] builds an uploader;
    [(new URL(url)).protocol] yields the scheme or throws. *)
Record collaborators : Type := {
  getURLMeta : js_url -> bool -> Error + urlMeta;
  Uploader : express_request -> option Z -> uploader;
  URL_protocol : js_url -> option string
}.

(** ** Effects and exceptions *)

Inductive outcome (A : Type) : Type :=
| Return (a : A)
| Throw (e : Error).

Arguments Return {A} a.
Arguments Throw {A} e.

(** A computation: the calls it made and how it ended. *)
Definition M (A : Type) : Type := list effect * outcome A.

Definition ret {A : Type} (a : A) : M A := ([], Return a).

Definition throw {A : Type} (e : Error) : M A := ([], Throw e).

Definition emit (e : effect) : M unit := ([e], Return tt).

Definition bind {A B : Type} (m : M A) (f : A -> M B) : M B :=
  match m with
  | (t, Return a) => let '(t', r) := f a in (t ++ t', r)
  | (t, Throw e) => (t, Throw e)
  end.

(** [try { m } catch (err) { h err }] *)
Definition try_catch {A : Type} (m : M A) (h : Error -> M A) : M A :=
  match m with
  | (t, Throw e) => let '(t', r) := h e in (t ++ t', r)
  | (t, Return a) => (t, Return a)
  end.

Declare Scope js_scope.
Delimit Scope js_scope with js.
Notation "x <- m ;; k" := (bind m (fun x => k))
  (at level 61, m at next level, right associativity) : js_scope.
Notation "m ;; k" := (bind m (fun _ => k))
  (at level 61, right associativity) : js_scope.
Open Scope js_scope.

Definition effects {A : Type} (m : M A) : list effect := fst m.

(** [err.status || 500]: a missing status and the number 0 are falsy. *)
Definition status_or (s : option Z) (default : Z) : Z :=
  match s with
  | Some n => if n =? 0 then default else n
  | None => default
  end.

(** ** [downloadURL] (url.js, lines 48-70) *)

(** The listeners of one [request(opts)] call.  The [response], [end] and
    [error] listeners are always attached; the [data] listener of the
    response object only once a response below 300 has been seen. *)
Record session : Type := {
  session_traceId : string;
  data_listener : bool
}.

Inductive transport_event : Type :=
| response_event (statusCode : Z)
| data_event (chunk : Chunk)
| end_event
| error_event (err : Error).

Definition new_URL_protocol (E : collaborators) (url : js_url) : M string :=
  match E.(URL_protocol) url with
  | Some p => ret p
  | None => throw {| err_message := "Invalid URL"; err_status := None |}
  end.

Definition downloadURL (E : collaborators) (url : js_url)
    (blockLocalIPs : bool) (traceId : string) : M session :=
  protocol <- new_URL_protocol E url ;;
  let opts :=
    {| uri := url;
       method := "GET";
       followRedirect := getRedirectEvaluator url blockLocalIPs;
       agentClass := getProtectedHttpAgent protocol blockLocalIPs |} in
  emit (request opts) ;;
  ret {| session_traceId := traceId; data_listener := false |}.

Definition status_error (statusCode : Z) : Error :=
  {| err_message :=
       ("URL server responded with status: " ++ JSString.of_Z statusCode)%string;
     err_status := None |}.

(** One event of the transport reaching the listeners (lines 57-69). *)
Definition on_event (s : session) (ev : transport_event)
    : list effect * session :=
  match ev with
  | response_event statusCode =>
      if statusCode >=? 300 then
        ([onDataChunk (Some (status_error statusCode)) None],
         {| session_traceId := s.(session_traceId); data_listener := false |})
      else
        ([], {| session_traceId := s.(session_traceId); data_listener := true |})
  | data_event chunk =>
      if s.(data_listener) then ([onDataChunk None (Some chunk)], s)
      else ([], s)
  | end_event => ([onDataChunk None None], s)
  | error_event err =>
      ([logger_error err "controller.url.download.error" s.(session_traceId);
        onDataChunk (Some err) None], s)
  end.

Fixpoint on_events (s : session) (evs : list transport_event)
    : list effect * session :=
  match evs with
  | [] => ([], s)
  | ev :: evs' =>
      let '(t, s') := on_event s ev in
      let '(t', s'') := on_events s' evs' in
      (t ++ t', s'')
  end.

(** Everything one call of [downloadURL] does, given what the transport
    then reports. *)
Definition fetch_trace (E : collaborators) (url : js_url)
    (blockLocalIPs : bool) (traceId : string)
    (evs : list transport_event) : list effect :=
  match downloadURL E url blockLocalIPs traceId with
  | (t, Return s) => t ++ fst (on_events s evs)
  | (t, Throw _) => t
  end.

(** ** Reading a trace *)

(** What one call of the chunk callback means to its receiver. *)
Inductive chunk_event : Type :=
| Data (chunk : Chunk)
| End
| Failed (err : Error).

Definition classify (err : option Error) (chunk : option Chunk) : chunk_event :=
  match err, chunk with
  | Some e, _ => Failed e
  | None, None => End
  | None, Some c => Data c
  end.

Fixpoint callback_calls (t : list effect) : list chunk_event :=
  match t with
  | [] => []
  | onDataChunk err chunk :: t' => classify err chunk :: callback_calls t'
  | _ :: t' => callback_calls t'
  end.

Definition is_data (c : chunk_event) : bool :=
  match c with Data _ => true | _ => false end.




Definition no_data (cs : list chunk_event) : bool :=
  forallb (fun c => negb (is_data c)) cs.





Definition is_response (ev : transport_event) : bool :=
  match ev with response_event _ => true | _ => false end.

(** ** The handlers (url.js, lines 78-140) *)

Definition invalid_body : json := [("error", JString "Invalid request body")].

Definition failure_body : json :=
  [("message", JString "failed to fetch URL metadata")].

(** [await getURLMeta(url, blockLocalIPs)]: the call, then the resolved
    value or the rejection thrown. *)
Definition await_getURLMeta (E : collaborators) (url : js_url)
    (blockLocalIPs : bool) : M urlMeta :=
  emit (call_getURLMeta url blockLocalIPs) ;;
  match E.(getURLMeta) url blockLocalIPs with
  | inr m => ret m
  | inl err => throw err
  end.

(** [new Uploader(Uploader.reqToOptions(req, size))] *)
Definition construct_Uploader (E : collaborators) (req : express_request)
    (sz : option Z) : M uploader :=
  emit (new_Uploader sz) ;;
  ret (E.(Uploader) req sz).

Definition meta (E : collaborators) (req : express_request) : M unit :=
  try_catch
    (emit (logger_debug "URL file import handler running" req.(id)) ;;
     let debug := req.(debug) in
     if negb (validateURL req.(body_url) debug) then
       emit (logger_debug
               "Invalid request body detected. Exiting url meta handler."
               req.(id)) ;;
       emit (res_status 400) ;;
       emit (res_json invalid_body)
     else
       urlMeta <- await_getURLMeta E req.(body_url) (negb debug) ;;
       emit (res_json (json_of_urlMeta urlMeta)))
    (fun err =>
       emit (logger_error err "controller.url.meta.error" req.(id)) ;;
       emit (res_status (status_or err.(err_status) 500)) ;;
       emit (res_json failure_body)).

Definition get (E : collaborators) (req : express_request) : M unit :=
  try_catch
    (emit (logger_debug "URL file import handler running" req.(id)) ;;
     let debug := req.(debug) in
     if negb (validateURL req.(body_url) debug) then
       emit (logger_debug
               "Invalid request body detected. Exiting url import handler."
               req.(id)) ;;
       emit (res_status 400) ;;
       emit (res_json invalid_body)
     else
       m <- await_getURLMeta E req.(body_url) (negb debug) ;;
       let size := m.(size) in
       emit (logger_debug "Instantiating uploader." req.(id)) ;;
       uploader <- construct_Uploader E req size ;;
       if uploader.(hasError) then
         let response := uploader.(getResponse) in
         emit (res_status response.(status)) ;;
         emit (res_json response.(body))
       else
         emit (logger_debug
                 "Waiting for socket connection before beginning remote download."
                 req.(id)) ;;
         emit (uploader_onSocketReady (on_socket_ready req)) ;;
         let response := uploader.(getResponse) in
         emit (res_status response.(status)) ;;
         emit (res_json response.(body)))
    (fun err =>
       emit (logger_error err "controller.url.get.error" req.(id)) ;;
       emit (res_status (status_or err.(err_status) 500)) ;;
       emit (res_json failure_body)).

(** The body of the readiness callback (lines 127-128). *)
Definition run_callback (E : collaborators) (cb : callback) : M session :=
  match cb with
  | on_socket_ready req =>
      emit (logger_debug
              "Socket connection received. Starting remote download."
              req.(id)) ;;
      downloadURL E req.(body_url) (negb req.(debug)) req.(id)
  end.

(** ** One import request and its surroundings *)

(** What happens around an import request once the handler has run: the
    uploader's socket connects, the transport reports. *)
Inductive env_event : Type :=
| socket_ready
| transport (ev : transport_event).

Record system : Type := {
  waiting : option callback;
  fetch : option session;
  trace : list effect
}.

Fixpoint registered (t : list effect) : option callback :=
  match t with
  | [] => None
  | uploader_onSocketReady cb :: _ => Some cb
  | _ :: t' => registered t'
  end.

Definition start (m : M unit) : system :=
  {| waiting := registered (effects m);
     fetch := None;
     trace := effects m |}.

(** Modelled from the spec: the [Uploader] class is missing; its readiness
    hook is a one-shot notification, so a registered callback runs once,
    when the socket connects.  The transport reports only on a request
    that was made. *)
Definition step (E : collaborators) (sys : system) (ev : env_event) : system :=
  match ev with
  | socket_ready =>
      match sys.(waiting) with
      | Some cb =>
          let '(t, r) := run_callback E cb in
          {| waiting := None;
             fetch := match r with
                      | Return s => Some s
                      | Throw _ => sys.(fetch)
                      end;
             trace := sys.(trace) ++ t |}
      | None => sys
      end
  | transport tev =>
      match sys.(fetch) with
      | Some s =>
          let '(t, s') := on_event s tev in
          {| waiting := sys.(waiting);
             fetch := Some s';
             trace := sys.(trace) ++ t |}
      | None => sys
      end
  end.

Definition run (E : collaborators) (sys : system) (evs : list env_event)
    : system :=
  fold_left (step E) evs sys.

(** Everything an import request does, given what then happens around it. *)
Definition import_trace (E : collaborators) (req : express_request)
    (evs : list env_event) : list effect :=
  (run E (start (get E req)) evs).(trace).

Definition is_socket_ready (ev : env_event) : bool :=
  match ev with socket_ready => true | transport _ => false end.

(** The calls that belong to the download. *)
Definition is_fetch_effect (e : effect) : bool :=
  match e with
  | request _ | onDataChunk _ _ => true
  | _ => false
  end.

Definition no_fetch_effect (t : list effect) : bool :=
  forallb (fun e => negb (is_fetch_effect e)) t.

(** What the listeners of a fetch may do: log and call back. *)
Definition listener_effect (e : effect) : bool :=
  match e with
  | onDataChunk _ _ | logger_error _ _ _ => true
  | _ => false
  end.

(** The [blockLocalIPs] flag an effect passes on is [!debug]. *)
Definition blocks_unless_debug (debug : bool) (e : effect) : bool :=
  match e with
  | call_getURLMeta _ b => Bool.eqb b (negb debug)
  | request opts =>
      match opts.(followRedirect), opts.(agentClass) with
      | getRedirectEvaluator _ b1, getProtectedHttpAgent _ b2 =>
          Bool.eqb b1 (negb debug) && Bool.eqb b2 (negb debug)
      end
  | _ => true
  end.

(** The scheme of a URL as the validator reads it. *)
Definition scheme (url : string) : option string :=
  match Validator.scheme_split url with
  | Some (p, _) => Some p
  | None => None
  end.


(** ** Sample collaborators *)

Module Sample.

Definition png : urlMeta := {| type := Some "image/png"; size := Some 1024 |}.

Definition accepted : uploader :=
  {| hasError := false;
     getResponse := {| status := 200; body := [("token", JString "t0")] |} |}.

Definition refused : uploader :=
  {| hasError := true;
     getResponse :=
       {| status := 400; body := [("message", JString "unsupported protocol")] |} |}.

Definition protocol_of (url : js_url) : option string :=
  match url with
  | Some s =>
      match scheme s with
      | Some p => Some (p ++ ":")%string
      | None => None
      end
  | None => None
  end.

(** A healthy origin and an uploader that accepts. *)
Definition healthy : collaborators :=
  {| getURLMeta := fun _ _ => inr png;
     Uploader := fun _ _ => accepted;
     URL_protocol := protocol_of |}.

(** An origin whose metadata probe fails with a status on the error. *)
Definition not_found : Error :=
  {| err_message := "not found"; err_status := Some 404 |}.

Definition unreachable : collaborators :=
  {| getURLMeta := fun _ _ => inl not_found;
     Uploader := fun _ _ => accepted;
     URL_protocol := protocol_of |}.

(** An uploader that fails its pre-flight checks. *)
Definition preflight_failure : collaborators :=
  {| getURLMeta := fun _ _ => inr png;
     Uploader := fun _ _ => refused;
     URL_protocol := protocol_of |}.

Definition import_png : express_request :=
  {| id := "req-1"; body_url := Some "https://example.com/a.png"; debug := false |}.

Definition import_ftp : express_request :=
  {| id := "req-2"; body_url := Some "ftp://example.com/a.png"; debug := false |}.

End Sample.

(** ** Sorting and counting effects *)

Definition count_effects (p : effect -> bool) (t : list effect) : nat :=
  List.length (filter p t).

Definition is_res_json (e : effect) : bool :=
  match e with res_json _ => true | _ => false end.

Definition is_res_status (e : effect) : bool :=
  match e with res_status _ => true | _ => false end.

Definition is_request (e : effect) : bool :=
  match e with request _ => true | _ => false end.

Definition is_logger_error (e : effect) : bool :=
  match e with logger_error _ _ _ => true | _ => false end.

Definition is_getURLMeta (e : effect) : bool :=
  match e with call_getURLMeta _ _ => true | _ => false end.

Definition is_onSocketReady (e : effect) : bool :=
  match e with uploader_onSocketReady _ => true | _ => false end.

(** The calls that write to the HTTP response. *)
Definition answers_client (e : effect) : bool :=
  is_res_status e || is_res_json e.

(** What a metadata request may do: log, resolve metadata, answer. *)
Definition metadata_effect (e : effect) : bool :=
  match e with
  | logger_debug _ _ | logger_error _ _ _
  | res_status _ | res_json _ | call_getURLMeta _ _ => true
  | _ => false
  end.

(** What the download may do: log, issue the request, call back. *)
Definition download_effect (e : effect) : bool :=
  match e with
  | logger_debug _ _ | logger_error _ _ _
  | request _ | onDataChunk _ _ => true
  | _ => false
  end.

(** A response that attaches the [data] listener (line 62). *)
Definition opens_stream (ev : transport_event) : bool :=
  match ev with
  | response_event statusCode => statusCode <? 300
  | _ => false
  end.

(** The errors the transport reported, in order. *)
Fixpoint transport_errors (evs : list transport_event) : list Error :=
  match evs with
  | [] => []
  | error_event err :: evs' => err :: transport_errors evs'
  | _ :: evs' => transport_errors evs'
  end.

Definition js_url_eqb (a b : js_url) : bool :=
  match a, b with
  | Some x, Some y => String.eqb x y
  | None, None => true
  | _, _ => false
  end.

(** The URL an effect acts on is [req.body.url], and it passed
    [validateURL]. *)
Definition on_validated_url (req : express_request) (e : effect) : bool :=
  match e with
  | call_getURLMeta url _ =>
      js_url_eqb url req.(body_url)
      && validateURL req.(body_url) req.(debug)
  | request opts =>
      js_url_eqb opts.(uri) req.(body_url)
      && String.eqb opts.(method) "GET"
      && validateURL req.(body_url) req.(debug)
  | _ => true
  end.

(** * Properties *)

(** ** Traces of a fetch *)

Lemma callback_calls_app (a b : list effect) :
  callback_calls (a ++ b) = callback_calls a ++ callback_calls b.
Proof.
  induction a as [|e a IH]; [reflexivity|].
  destruct e; simpl; rewrite IH; reflexivity.
Qed.

Lemma on_events_cons (s : session) (ev : transport_event)
    (evs : list transport_event) :
  fst (on_events s (ev :: evs)) =
  fst (on_event s ev) ++ fst (on_events (snd (on_event s ev)) evs).
Proof.
  simpl. destruct (on_event s ev) as [t s']. simpl.
  destruct (on_events s' evs) as [t' s'']. reflexivity.
Qed.

Lemma no_data_app (a b : list chunk_event) :
  no_data (a ++ b) = no_data a && no_data b.
Proof. apply forallb_app. Qed.

Lemma on_event_listener_effects (s : session) (ev : transport_event) :
  forallb listener_effect (fst (on_event s ev)) = true.
Proof.
  destruct ev as [statusCode|chunk| |err]; simpl.
  - destruct (statusCode >=? 300); reflexivity.
  - destruct (data_listener s); reflexivity.
  - reflexivity.
  - reflexivity.
Qed.

Lemma on_events_listener_effects (evs : list transport_event) :
  forall s, forallb listener_effect (fst (on_events s evs)) = true.
Proof.
  induction evs as [|ev evs IH]; intro s; [reflexivity|].
  rewrite on_events_cons, forallb_app, on_event_listener_effects, IH.
  reflexivity.
Qed.

(** Without a [data] listener, and with no further response, no chunk
    reaches the callback. *)
Lemma no_listener_no_data (evs : list transport_event) :
  forall s,
    data_listener s = false ->
    existsb is_response evs = false ->
    no_data (callback_calls (fst (on_events s evs))) = true.
Proof.
  induction evs as [|ev evs IH]; intros s Hs Hr; [reflexivity|].
  rewrite on_events_cons, callback_calls_app, no_data_app.
  simpl in Hr. apply orb_false_elim in Hr as [Hev Hr].
  destruct ev as [statusCode|chunk| |err]; simpl in *;
    try discriminate; try rewrite Hs; simpl; apply IH; assumption.
Qed.

Lemma downloadURL_cases (E : collaborators) (url : js_url)
    (blockLocalIPs : bool) (traceId : string) :
  (exists p,
      E.(URL_protocol) url = Some p /\
      downloadURL E url blockLocalIPs traceId =
      ([request {| uri := url;
                   method := "GET";
                   followRedirect := getRedirectEvaluator url blockLocalIPs;
                   agentClass := getProtectedHttpAgent p blockLocalIPs |}],
       Return {| session_traceId := traceId; data_listener := false |}))
  \/ (E.(URL_protocol) url = None /\
      exists e, downloadURL E url blockLocalIPs traceId = ([], Throw e)).
Proof.
  unfold downloadURL, new_URL_protocol.
  destruct (URL_protocol E url) as [p|].
  - left. exists p. split; reflexivity.
  - right. split; [reflexivity|]. eexists. reflexivity.
Qed.

Lemma fetch_trace_calls (E : collaborators) (url : js_url)
    (blockLocalIPs : bool) (traceId : string) (p : string)
    (evs : list transport_event) :
  E.(URL_protocol) url = Some p ->
  callback_calls (fetch_trace E url blockLocalIPs traceId evs) =
  callback_calls
    (fst (on_events {| session_traceId := traceId; data_listener := false |} evs)).
Proof.
  intro Hp. unfold fetch_trace.
  destruct (downloadURL_cases E url blockLocalIPs traceId)
    as [(q & Hq & ->)|(Hq & _)]; [|congruence].
  rewrite callback_calls_app. reflexivity.
Qed.

Lemma fetch_trace_no_request (E : collaborators) (url : js_url)
    (blockLocalIPs : bool) (traceId : string)
    (evs : list transport_event) :
  E.(URL_protocol) url = None ->
  fetch_trace E url blockLocalIPs traceId evs = [].
Proof.
  intro Hp. unfold fetch_trace.
  destruct (downloadURL_cases E url blockLocalIPs traceId)
    as [(q & Hq & _)|(_ & e & ->)]; [congruence|reflexivity].
Qed.







(** C3.  Every request that [downloadURL] issues carries both protections:
    the redirect evaluator built from the URL and the [blockLocalIPs]
    flag, and the protected agent built from the URL's scheme and the same
    flag. *)
Theorem downloadURL_installs_protections (E : collaborators) (url : js_url)
    (blockLocalIPs : bool) (traceId : string)
    (evs : list transport_event) (opts : request_opts) :
  In (request opts) (fetch_trace E url blockLocalIPs traceId evs) ->
  opts.(followRedirect) = getRedirectEvaluator url blockLocalIPs
  /\ exists protocol,
       E.(URL_protocol) url = Some protocol
       /\ opts.(agentClass) = getProtectedHttpAgent protocol blockLocalIPs.
Proof.
  unfold fetch_trace.
  destruct (downloadURL_cases E url blockLocalIPs traceId)
    as [(p & Hp & ->)|(_ & e & ->)]; [|intros []].
  intro H. apply in_app_or in H as [H|H].
  - destruct H as [H|[]]. injection H as <-.
    split; [reflexivity|]. exists p. split; [assumption|reflexivity].
  - pose proof (on_events_listener_effects evs
                  {| session_traceId := traceId; data_listener := false |}) as Hl.
    rewrite forallb_forall in Hl. specialize (Hl _ H). discriminate Hl.
Qed.

Lemma downloadURL_installs_protections_witness :
  let opts :=
    {| uri := Some "https://example.com/a.png";
       method := "GET";
       followRedirect :=
         getRedirectEvaluator (Some "https://example.com/a.png") true;
       agentClass := getProtectedHttpAgent "https:" true |} in
  In (request opts)
     (fetch_trace Sample.healthy (Some "https://example.com/a.png") true "t"
        [response_event 200; end_event])
  /\ opts.(followRedirect)
     = getRedirectEvaluator (Some "https://example.com/a.png") true
  /\ exists protocol,
       Sample.protocol_of (Some "https://example.com/a.png") = Some protocol
       /\ opts.(agentClass) = getProtectedHttpAgent protocol true.
Proof.
  assert (Hin : In (request
                      {| uri := Some "https://example.com/a.png";
                         method := "GET";
                         followRedirect :=
                           getRedirectEvaluator (Some "https://example.com/a.png") true;
                         agentClass := getProtectedHttpAgent "https:" true |})
                   (fetch_trace Sample.healthy (Some "https://example.com/a.png")
                      true "t" [response_event 200; end_event]))
    by (left; reflexivity).
  split; [exact Hin|].
  exact (downloadURL_installs_protections Sample.healthy
           (Some "https://example.com/a.png") true "t"
           [response_event 200; end_event] _ Hin).
Defined.

(** C4.  When the response of a fetch arrives with a status of 300 or
    more, the first thing the callback receives is an error whose message
    carries that status, and no data chunk of that response is ever
    delivered. *)
Theorem downloadURL_upstream_status (E : collaborators) (url : js_url)
    (blockLocalIPs : bool) (traceId : string) (protocol : string)
    (statusCode : Z) (evs : list transport_event) :
  E.(URL_protocol) url = Some protocol ->
  300 <= statusCode ->
  existsb is_response evs = false ->
  exists rest,
    callback_calls
      (fetch_trace E url blockLocalIPs traceId (response_event statusCode :: evs))
    = Failed {| err_message :=
                  ("URL server responded with status: "
                   ++ JSString.of_Z statusCode)%string;
                err_status := None |} :: rest
    /\ no_data rest = true.
Proof.
  intros Hp Hs Hr.
  rewrite (fetch_trace_calls E url blockLocalIPs traceId protocol _ Hp).
  rewrite on_events_cons, callback_calls_app. simpl.
  assert (Hge : (statusCode >=? 300) = true) by (apply Z.geb_le; lia).
  rewrite Hge. simpl.
  eexists. split; [reflexivity|].
  apply no_listener_no_data; [reflexivity|assumption].
Qed.

Lemma downloadURL_upstream_status_witness :
  exists rest,
    callback_calls
      (fetch_trace Sample.healthy (Some "http://example.com/missing") true "t"
         [response_event 404; data_event "<html>"; end_event])
    = Failed {| err_message := "URL server responded with status: 404";
                err_status := None |} :: rest
    /\ no_data rest = true.
Proof.
  apply (downloadURL_upstream_status Sample.healthy
           (Some "http://example.com/missing") true "t" "http:" 404
           [data_event "<html>"; end_event]).
  - reflexivity.
  - lia.
  - reflexivity.
Defined.

(** ** The handlers *)

Section Handlers.

Variable E : collaborators.
Variable req : express_request.

(** The four ways through the import handler. *)
Lemma get_invalid :
  validateURL req.(body_url) req.(debug) = false ->
  get E req =
  ([logger_debug "URL file import handler running" req.(id);
    logger_debug "Invalid request body detected. Exiting url import handler."
      req.(id);
    res_status 400;
    res_json invalid_body], Return tt).
Proof. intro H. unfold get. rewrite H. reflexivity. Qed.

Lemma get_meta_failure (err : Error) :
  validateURL req.(body_url) req.(debug) = true ->
  E.(getURLMeta) req.(body_url) (negb req.(debug)) = inl err ->
  get E req =
  ([logger_debug "URL file import handler running" req.(id);
    call_getURLMeta req.(body_url) (negb req.(debug));
    logger_error err "controller.url.get.error" req.(id);
    res_status (status_or err.(err_status) 500);
    res_json failure_body], Return tt).
Proof.
  intros H Hm. unfold get, await_getURLMeta. rewrite H. simpl.
  rewrite Hm. reflexivity.
Qed.

Lemma get_uploader_error (m : urlMeta) :
  validateURL req.(body_url) req.(debug) = true ->
  E.(getURLMeta) req.(body_url) (negb req.(debug)) = inr m ->
  (E.(Uploader) req m.(size)).(hasError) = true ->
  get E req =
  ([logger_debug "URL file import handler running" req.(id);
    call_getURLMeta req.(body_url) (negb req.(debug));
    logger_debug "Instantiating uploader." req.(id);
    new_Uploader m.(size);
    res_status (E.(Uploader) req m.(size)).(getResponse).(status);
    res_json (E.(Uploader) req m.(size)).(getResponse).(body)], Return tt).
Proof.
  intros H Hm Hu. unfold get, await_getURLMeta, construct_Uploader.
  rewrite H. simpl. rewrite Hm. simpl. rewrite Hu. reflexivity.
Qed.

Lemma get_accepted (m : urlMeta) :
  validateURL req.(body_url) req.(debug) = true ->
  E.(getURLMeta) req.(body_url) (negb req.(debug)) = inr m ->
  (E.(Uploader) req m.(size)).(hasError) = false ->
  get E req =
  ([logger_debug "URL file import handler running" req.(id);
    call_getURLMeta req.(body_url) (negb req.(debug));
    logger_debug "Instantiating uploader." req.(id);
    new_Uploader m.(size);
    logger_debug
      "Waiting for socket connection before beginning remote download."
      req.(id);
    uploader_onSocketReady (on_socket_ready req);
    res_status (E.(Uploader) req m.(size)).(getResponse).(status);
    res_json (E.(Uploader) req m.(size)).(getResponse).(body)], Return tt).
Proof.
  intros H Hm Hu. unfold get, await_getURLMeta, construct_Uploader.
  rewrite H. simpl. rewrite Hm. simpl. rewrite Hu. reflexivity.
Qed.

Lemma get_cases :
  (validateURL req.(body_url) req.(debug) = false)
  \/ (validateURL req.(body_url) req.(debug) = true /\
      ((exists err, E.(getURLMeta) req.(body_url) (negb req.(debug)) = inl err)
       \/ (exists m,
             E.(getURLMeta) req.(body_url) (negb req.(debug)) = inr m /\
             ((E.(Uploader) req m.(size)).(hasError) = true
              \/ (E.(Uploader) req m.(size)).(hasError) = false)))).
Proof.
  destruct (validateURL (body_url req) (debug req)); [right|left; reflexivity].
  split; [reflexivity|].
  destruct (getURLMeta E (body_url req) (negb (debug req))) as [err|m].
  - left. exists err. reflexivity.
  - right. exists m. split; [reflexivity|].
    destruct (hasError (Uploader E req (size m))); auto.
Qed.

(** The handler itself never touches the download. *)
Lemma get_no_fetch_effect : no_fetch_effect (effects (get E req)) = true.
Proof.
  destruct get_cases as [H|(H & [(err & Hm)|(m & Hm & [Hu|Hu])])].
  - rewrite (get_invalid H). reflexivity.
  - rewrite (get_meta_failure err H Hm). reflexivity.
  - rewrite (get_uploader_error m H Hm Hu). reflexivity.
  - rewrite (get_accepted m H Hm Hu). reflexivity.
Qed.

(** The only callback the handler ever registers is the one that starts
    the download of this request. *)
Lemma get_registered (cb : callback) :
  registered (effects (get E req)) = Some cb -> cb = on_socket_ready req.
Proof.
  destruct get_cases as [H|(H & [(err & Hm)|(m & Hm & [Hu|Hu])])].
  - rewrite (get_invalid H). discriminate.
  - rewrite (get_meta_failure err H Hm). discriminate.
  - rewrite (get_uploader_error m H Hm Hu). discriminate.
  - rewrite (get_accepted m H Hm Hu). simpl. congruence.
Qed.

(** Nothing moves while no fetch is running and the socket has not
    connected (or nobody waits for it). *)
Lemma run_idle (evs : list env_event) :
  forall sys,
    sys.(fetch) = None ->
    sys.(waiting) = None \/ existsb is_socket_ready evs = false ->
    run E sys evs = sys.
Proof.
  induction evs as [|ev evs IH]; intros sys Hf Hw; [reflexivity|].
  unfold run. simpl. fold (run E (step E sys ev) evs).
  assert (Hstep : step E sys ev = sys).
  { destruct ev as [|tev]; simpl.
    - destruct Hw as [Hw|Hw]; [rewrite Hw; reflexivity|simpl in Hw; discriminate].
    - rewrite Hf. reflexivity. }
  rewrite Hstep. apply IH; [assumption|].
  destruct Hw as [Hw|Hw]; [left; assumption|right].
  simpl in Hw. apply orb_false_elim in Hw. tauto.
Qed.

(** A property of single effects that holds of the handler, of the
    readiness callback and of the listeners holds of the whole import. *)
Lemma run_forallb (p : effect -> bool) (evs : list env_event) :
  (forall s ev, forallb p (fst (on_event s ev)) = true) ->
  forall sys,
    forallb p sys.(trace) = true ->
    (forall cb, sys.(waiting) = Some cb ->
                forallb p (effects (run_callback E cb)) = true) ->
    forallb p (run E sys evs).(trace) = true.
Proof.
  intro Hev.
  induction evs as [|ev evs IH]; intros sys Ht Hcb; [exact Ht|].
  unfold run. simpl. fold (run E (step E sys ev) evs).
  apply IH.
  - destruct ev as [|tev]; simpl.
    + destruct (waiting sys) as [cb|] eqn:Hw; [|exact Ht].
      specialize (Hcb cb eq_refl). unfold effects in Hcb.
      destruct (run_callback E cb) as [t r]. simpl in *.
      rewrite forallb_app, Ht, Hcb. reflexivity.
    + destruct (fetch sys) as [s|]; [|exact Ht].
      specialize (Hev s tev). destruct (on_event s tev) as [t s'].
      simpl in *. rewrite forallb_app, Ht, Hev. reflexivity.
  - intros cb Hw. destruct ev as [|tev]; simpl in Hw.
    + destruct (waiting sys) as [cb'|] eqn:Hws; [|congruence].
      destruct (run_callback E cb'). simpl in Hw. discriminate Hw.
    + destruct (fetch sys) as [s|]; [destruct (on_event s tev); simpl in Hw|];
        apply Hcb; exact Hw.
Qed.

End Handlers.

(** The metadata handler: its three ways through. *)
Lemma meta_invalid (E : collaborators) (req : express_request) :
  validateURL req.(body_url) req.(debug) = false ->
  meta E req =
  ([logger_debug "URL file import handler running" req.(id);
    logger_debug "Invalid request body detected. Exiting url meta handler."
      req.(id);
    res_status 400;
    res_json invalid_body], Return tt).
Proof. intro H. unfold meta. rewrite H. reflexivity. Qed.

Lemma meta_failure (E : collaborators) (req : express_request) (err : Error) :
  validateURL req.(body_url) req.(debug) = true ->
  E.(getURLMeta) req.(body_url) (negb req.(debug)) = inl err ->
  meta E req =
  ([logger_debug "URL file import handler running" req.(id);
    call_getURLMeta req.(body_url) (negb req.(debug));
    logger_error err "controller.url.meta.error" req.(id);
    res_status (status_or err.(err_status) 500);
    res_json failure_body], Return tt).
Proof.
  intros H Hm. unfold meta, await_getURLMeta. rewrite H. simpl.
  rewrite Hm. reflexivity.
Qed.

Lemma meta_success (E : collaborators) (req : express_request) (m : urlMeta) :
  validateURL req.(body_url) req.(debug) = true ->
  E.(getURLMeta) req.(body_url) (negb req.(debug)) = inr m ->
  meta E req =
  ([logger_debug "URL file import handler running" req.(id);
    call_getURLMeta req.(body_url) (negb req.(debug));
    res_json (json_of_urlMeta m)], Return tt).
Proof.
  intros H Hm. unfold meta, await_getURLMeta. rewrite H. simpl.
  rewrite Hm. reflexivity.
Qed.

Lemma start_get_fetch (E : collaborators) (req : express_request) :
  (start (get E req)).(fetch) = None.
Proof. reflexivity. Qed.

(** C2.  As long as the uploader's socket has not connected, an import
    request has done exactly what the handler did, and that contains no
    request to the origin and no call of the chunk callback. *)
Theorem get_download_waits_for_socket (E : collaborators)
    (req : express_request) (evs : list env_event) :
  existsb is_socket_ready evs = false ->
  import_trace E req evs = effects (get E req)
  /\ no_fetch_effect (import_trace E req evs) = true.
Proof.
  intro H.
  assert (Ht : import_trace E req evs = effects (get E req)).
  { unfold import_trace. rewrite run_idle; auto. }
  split; [exact Ht|]. rewrite Ht. apply get_no_fetch_effect.
Qed.

Lemma get_download_waits_for_socket_witness :
  let evs := [transport (response_event 200); transport (data_event "ab")] in
  import_trace Sample.healthy Sample.import_png evs
  = effects (get Sample.healthy Sample.import_png)
  /\ no_fetch_effect (import_trace Sample.healthy Sample.import_png evs) = true.
Proof.
  apply (get_download_waits_for_socket Sample.healthy Sample.import_png
           [transport (response_event 200); transport (data_event "ab")]).
  reflexivity.
Defined.

(** Once the socket connects, the download of an accepted import does
    start. *)
Example get_download_starts_on_socket_ready :
  no_fetch_effect
    (import_trace Sample.healthy Sample.import_png [socket_ready]) = false.
Proof. reflexivity. Qed.

(** C5.  When the URL of a request fails validation, either handler
    answers 400 with the fixed body and does nothing else: no metadata
    call, no uploader, no readiness callback and, whatever happens
    afterwards, no download. *)
Theorem invalid_url_is_rejected_before_io (E : collaborators)
    (req : express_request) :
  validateURL req.(body_url) req.(debug) = false ->
  meta E req =
    ([logger_debug "URL file import handler running" req.(id);
      logger_debug "Invalid request body detected. Exiting url meta handler."
        req.(id);
      res_status 400;
      res_json [("error", JString "Invalid request body")]], Return tt)
  /\ get E req =
    ([logger_debug "URL file import handler running" req.(id);
      logger_debug "Invalid request body detected. Exiting url import handler."
        req.(id);
      res_status 400;
      res_json [("error", JString "Invalid request body")]], Return tt)
  /\ forall evs, import_trace E req evs = effects (get E req).
Proof.
  intro H. split; [apply meta_invalid; exact H|].
  split; [apply get_invalid; exact H|].
  intro evs. unfold import_trace. rewrite run_idle; auto.
  left. unfold start. rewrite (get_invalid E req H). reflexivity.
Qed.

Lemma invalid_url_is_rejected_before_io_witness :
  effects (meta Sample.healthy Sample.import_ftp) =
    [logger_debug "URL file import handler running" "req-2";
     logger_debug "Invalid request body detected. Exiting url meta handler."
       "req-2";
     res_status 400;
     res_json [("error", JString "Invalid request body")]]
  /\ import_trace Sample.healthy Sample.import_ftp
       [socket_ready; transport (response_event 200)]
     = effects (get Sample.healthy Sample.import_ftp).
Proof.
  destruct (invalid_url_is_rejected_before_io Sample.healthy Sample.import_ftp
              eq_refl) as [Hm [_ Hi]].
  split; [rewrite Hm; reflexivity|apply Hi].
Defined.

(** C8.  When the URL passes validation and metadata resolution fails,
    the metadata handler answers with the status the failure carries, or
    500 when it carries none, and with a fixed body in which nothing of
    the failure appears. *)
Theorem meta_resolver_failure (E : collaborators) (req : express_request)
    (err : Error) :
  validateURL req.(body_url) req.(debug) = true ->
  E.(getURLMeta) req.(body_url) (negb req.(debug)) = inl err ->
  exists code,
    meta E req =
      ([logger_debug "URL file import handler running" req.(id);
        call_getURLMeta req.(body_url) (negb req.(debug));
        logger_error err "controller.url.meta.error" req.(id);
        res_status code;
        res_json [("message", JString "failed to fetch URL metadata")]],
       Return tt)
    /\ (err.(err_status) = None -> code = 500)
    /\ (forall s, err.(err_status) = Some s -> s <> 0 -> code = s).
Proof.
  intros H Hm. exists (status_or err.(err_status) 500).
  split; [apply meta_failure; assumption|].
  unfold status_or. split.
  - intros ->. reflexivity.
  - intros s -> Hs. apply Z.eqb_neq in Hs. rewrite Hs. reflexivity.
Qed.

Lemma meta_resolver_failure_witness :
  effects (meta Sample.unreachable Sample.import_png) =
    [logger_debug "URL file import handler running" "req-1";
     call_getURLMeta (Some "https://example.com/a.png") true;
     logger_error Sample.not_found "controller.url.meta.error" "req-1";
     res_status 404;
     res_json [("message", JString "failed to fetch URL metadata")]].
Proof.
  destruct (meta_resolver_failure Sample.unreachable Sample.import_png
              Sample.not_found eq_refl eq_refl) as [code [Hm [_ Hs]]].
  rewrite Hm. simpl.
  rewrite (Hs 404 eq_refl ltac:(discriminate)). reflexivity.
Defined.

(** ** The debug flag *)

Lemma forallb_In_true {A : Type} (p : A -> bool) (l : list A) (a : A) :
  forallb p l = true -> In a l -> p a = true.
Proof. intros H Hin. rewrite forallb_forall in H. apply H. exact Hin. Qed.

Lemma meta_blocks_unless_debug (E : collaborators) (req : express_request) :
  forallb (blocks_unless_debug req.(debug)) (effects (meta E req)) = true.
Proof.
  destruct (validateURL (body_url req) (debug req)) eqn:H.
  - destruct (getURLMeta E (body_url req) (negb (debug req))) as [err|m] eqn:Hm.
    + rewrite (meta_failure E req err H Hm). simpl.
      rewrite Bool.eqb_reflx. reflexivity.
    + rewrite (meta_success E req m H Hm). simpl.
      rewrite Bool.eqb_reflx. reflexivity.
  - rewrite (meta_invalid E req H). reflexivity.
Qed.

Lemma get_blocks_unless_debug (E : collaborators) (req : express_request) :
  forallb (blocks_unless_debug req.(debug)) (effects (get E req)) = true.
Proof.
  destruct (get_cases E req) as [H|(H & [(err & Hm)|(m & Hm & [Hu|Hu])])].
  - rewrite (get_invalid E req H). reflexivity.
  - rewrite (get_meta_failure E req err H Hm). simpl.
    rewrite Bool.eqb_reflx. reflexivity.
  - rewrite (get_uploader_error E req m H Hm Hu). simpl.
    rewrite Bool.eqb_reflx. reflexivity.
  - rewrite (get_accepted E req m H Hm Hu). simpl.
    rewrite Bool.eqb_reflx. reflexivity.
Qed.

Lemma callback_blocks_unless_debug (E : collaborators) (req : express_request) :
  forallb (blocks_unless_debug req.(debug))
    (effects (run_callback E (on_socket_ready req))) = true.
Proof.
  unfold run_callback, effects.
  destruct (downloadURL_cases E (body_url req) (negb (debug req)) (id req))
    as [(p & _ & ->)|(_ & e & ->)]; simpl.
  - rewrite Bool.eqb_reflx. reflexivity.
  - reflexivity.
Qed.

Lemma listeners_block_unless_debug (d : bool) (s : session)
    (ev : transport_event) :
  forallb (blocks_unless_debug d) (fst (on_event s ev)) = true.
Proof.
  destruct ev as [statusCode|chunk| |err]; simpl.
  - destruct (statusCode >=? 300); reflexivity.
  - destruct (data_listener s); reflexivity.
  - reflexivity.
  - reflexivity.
Qed.

Lemma import_blocks_unless_debug (E : collaborators) (req : express_request)
    (evs : list env_event) :
  forallb (blocks_unless_debug req.(debug)) (import_trace E req evs) = true.
Proof.
  unfold import_trace. apply run_forallb.
  - apply listeners_block_unless_debug.
  - apply get_blocks_unless_debug.
  - intros cb Hcb. simpl in Hcb. apply get_registered in Hcb. subst cb.
    apply callback_blocks_unless_debug.
Qed.

(** C9.  In the metadata handler and in the import handler, with all that
    follows it, every [blockLocalIPs] flag handed to metadata resolution
    and every flag in the two protections of a download request is the
    negation of [debug]; the validator's [require_tld] is that same
    negation. *)
Theorem blockLocalIPs_is_not_debug (E : collaborators) (req : express_request) :
  (forall url b,
      In (call_getURLMeta url b) (effects (meta E req)) ->
      b = negb req.(debug))
  /\ (forall evs url b,
         In (call_getURLMeta url b) (import_trace E req evs) ->
         b = negb req.(debug))
  /\ (forall evs opts,
         In (request opts) (import_trace E req evs) ->
         exists url protocol,
           opts.(followRedirect) = getRedirectEvaluator url (negb req.(debug))
           /\ opts.(agentClass)
              = getProtectedHttpAgent protocol (negb req.(debug)))
  /\ (validURLOpts req.(debug)).(Validator.require_tld) = negb req.(debug).
Proof.
  repeat split.
  - intros url b Hin.
    pose proof (forallb_In_true _ _ _ (meta_blocks_unless_debug E req) Hin) as H.
    simpl in H. apply Bool.eqb_prop in H. exact H.
  - intros evs url b Hin.
    pose proof (forallb_In_true _ _ _ (import_blocks_unless_debug E req evs) Hin)
      as H.
    simpl in H. apply Bool.eqb_prop in H. exact H.
  - intros evs opts Hin.
    pose proof (forallb_In_true _ _ _ (import_blocks_unless_debug E req evs) Hin)
      as H.
    simpl in H.
    destruct opts as [u m [url b1] [protocol b2]]. simpl in *.
    apply andb_prop in H as [H1 H2].
    apply Bool.eqb_prop in H1, H2. subst b1 b2.
    exists url, protocol. split; reflexivity.
Qed.

Lemma blockLocalIPs_is_not_debug_witness :
  In (call_getURLMeta (Some "https://example.com/a.png") true)
     (effects (meta Sample.healthy Sample.import_png))
  /\ In (request
           {| uri := Some "https://example.com/a.png";
              method := "GET";
              followRedirect :=
                getRedirectEvaluator (Some "https://example.com/a.png") true;
              agentClass := getProtectedHttpAgent "https:" true |})
        (import_trace Sample.healthy Sample.import_png [socket_ready])
  /\ true = negb Sample.import_png.(debug)
  /\ (validURLOpts Sample.import_png.(debug)).(Validator.require_tld) = true.
Proof.
  assert (Hin : In (call_getURLMeta (Some "https://example.com/a.png") true)
                   (effects (meta Sample.healthy Sample.import_png)))
    by (right; left; reflexivity).
  destruct (blockLocalIPs_is_not_debug Sample.healthy Sample.import_png)
    as [Hmeta [_ [_ Htld]]].
  split; [exact Hin|].
  split; [vm_compute; tauto|].
  split; [exact (Hmeta _ _ Hin)|exact Htld].
Defined.

(** ** A refused upload *)

(** C10.  When the uploader reports an error right after it is built, the
    import handler answers with the uploader's own status and body and
    registers no readiness callback; whatever happens afterwards, the
    request does nothing more, so no download is started. *)
Theorem get_uploader_preflight_error (E : collaborators)
    (req : express_request) (m : urlMeta) :
  validateURL req.(body_url) req.(debug) = true ->
  E.(getURLMeta) req.(body_url) (negb req.(debug)) = inr m ->
  (E.(Uploader) req m.(size)).(hasError) = true ->
  get E req =
    ([logger_debug "URL file import handler running" req.(id);
      call_getURLMeta req.(body_url) (negb req.(debug));
      logger_debug "Instantiating uploader." req.(id);
      new_Uploader m.(size);
      res_status (E.(Uploader) req m.(size)).(getResponse).(status);
      res_json (E.(Uploader) req m.(size)).(getResponse).(body)], Return tt)
  /\ registered (effects (get E req)) = None
  /\ forall evs,
       import_trace E req evs = effects (get E req)
       /\ no_fetch_effect (import_trace E req evs) = true.
Proof.
  intros H Hm Hu.
  pose proof (get_uploader_error E req m H Hm Hu) as Hg.
  split; [exact Hg|].
  assert (Hr : registered (effects (get E req)) = None)
    by (rewrite Hg; reflexivity).
  split; [exact Hr|].
  intro evs.
  assert (Ht : import_trace E req evs = effects (get E req)).
  { unfold import_trace. rewrite run_idle; auto. }
  split; [exact Ht|]. rewrite Ht. apply get_no_fetch_effect.
Qed.

Lemma get_uploader_preflight_error_witness :
  import_trace Sample.preflight_failure Sample.import_png
    [socket_ready; transport (response_event 200); transport (data_event "ab")]
  = [logger_debug "URL file import handler running" "req-1";
     call_getURLMeta (Some "https://example.com/a.png") true;
     logger_debug "Instantiating uploader." "req-1";
     new_Uploader (Some 1024);
     res_status 400;
     res_json [("message", JString "unsupported protocol")]].
Proof.
  destruct (get_uploader_preflight_error Sample.preflight_failure
              Sample.import_png Sample.png eq_refl eq_refl eq_refl)
    as [Hg [_ Hi]].
  destruct (Hi [socket_ready; transport (response_event 200);
                transport (data_event "ab")]) as [Ht _].
  rewrite Ht, Hg. reflexivity.
Defined.

(** ** Validation *)

Lemma validateURL_isURL (url : string) (debug : bool) :
  validateURL (Some url) debug = true ->
  Validator.isURL url (validURLOpts debug) = true.
Proof.
  unfold validateURL, falsy.
  destruct (String.eqb url ""); [discriminate|].
  destruct (Validator.isURL url (validURLOpts debug)); [reflexivity|discriminate].
Qed.

Lemma isURL_scheme (url : string) (debug : bool) :
  Validator.isURL url (validURLOpts debug) = true ->
  scheme url = Some "http" \/ scheme url = Some "https".
Proof.
  unfold Validator.isURL, scheme.
  destruct (_ || _); [discriminate|].
  destruct (JSString.startsWith "mailto:" url); [discriminate|].
  destruct (Validator.scheme_split url) as [[protocol rest]|]; simpl.
  - destruct (String.eqb_spec protocol "http") as [->|_]; [auto|].
    destruct (String.eqb_spec protocol "https") as [->|_]; [auto|].
    discriminate.
  - discriminate.
Qed.

Lemma scheme_ftp (rest : string) : scheme ("ftp://" ++ rest) = Some "ftp".
Proof.
  unfold scheme, Validator.scheme_split, Validator.strip_fragment_query,
    JSString.before.
  simpl. destruct (JSString.split_first "#" rest) as [[a b]|]; simpl.
  - destruct (JSString.split_first "?" a) as [[c d]|]; reflexivity.
  - destruct (JSString.split_first "?" rest) as [[c d]|]; reflexivity.
Qed.

(** C6.  A URL whose scheme is neither [http] nor [https], and so also a
    URL with no scheme at all, is invalid whatever the debug flag; every
    [ftp://] URL is such a URL. *)
Theorem validateURL_rejects_other_schemes :
  (forall (url : string) (debug : bool),
      scheme url <> Some "http" ->
      scheme url <> Some "https" ->
      validateURL (Some url) debug = false)
  /\ (forall (url : string) (debug : bool),
         scheme url = None -> validateURL (Some url) debug = false)
  /\ (forall (rest : string) (debug : bool),
         validateURL (Some ("ftp://" ++ rest)%string) debug = false).
Proof.
  assert (H : forall url debug,
             scheme url <> Some "http" ->
             scheme url <> Some "https" ->
             validateURL (Some url) debug = false).
  { intros url debug H1 H2.
    destruct (validateURL (Some url) debug) eqn:Hv; [|reflexivity].
    apply validateURL_isURL, isURL_scheme in Hv. tauto. }
  split; [exact H|]. split.
  - intros url debug Hs. apply H; rewrite Hs; discriminate.
  - intros rest debug. apply H; rewrite scheme_ftp; discriminate.
Qed.

Lemma validateURL_rejects_other_schemes_witness :
  validateURL (Some "ftp://example.com/a.png") true = false
  /\ validateURL (Some "ftp://example.com/a.png") false = false
  /\ validateURL (Some "example.com/a.png") true = false
  /\ validateURL (Some "example.com/a.png") false = false.
Proof.
  destruct validateURL_rejects_other_schemes as [_ [Hnone Hftp]].
  split; [apply (Hftp "example.com/a.png" true)|].
  split; [apply (Hftp "example.com/a.png" false)|].
  split; apply Hnone; reflexivity.
Defined.

(** C7.  With the top-level-domain requirement in force (debug off),
    [http://localhost] is invalid; without it (debug on) it is valid. *)
Theorem validateURL_localhost :
  (validURLOpts false).(Validator.require_tld) = true
  /\ validateURL (Some "http://localhost") false = false
  /\ (validURLOpts true).(Validator.require_tld) = false
  /\ validateURL (Some "http://localhost") true = true.
Proof. repeat split. Qed.

(** ** Worked requests *)

Example validateURL_example_com :
  validateURL (Some "https://example.com/a.png?x=1#f") false = true.
Proof. reflexivity. Qed.

Example validateURL_localhost_port :
  validateURL (Some "http://localhost:3020/file") true = true.
Proof. reflexivity. Qed.

Example validateURL_loopback :
  validateURL (Some "http://127.0.0.1/admin") false = true.
Proof. reflexivity. Qed.

Example validateURL_empty :
  validateURL (Some "") true = false /\ validateURL None true = false.
Proof. split; reflexivity. Qed.

Example meta_png :
  meta Sample.healthy Sample.import_png =
  ([logger_debug "URL file import handler running" "req-1";
    call_getURLMeta (Some "https://example.com/a.png") true;
    res_json [("type", JString "image/png"); ("size", JNumber 1024)]],
   Return tt).
Proof. reflexivity. Qed.

Example import_png_trace :
  import_trace Sample.healthy Sample.import_png
    [socket_ready; transport (response_event 200);
     transport (data_event "ab"); transport end_event]
  = [logger_debug "URL file import handler running" "req-1";
     call_getURLMeta (Some "https://example.com/a.png") true;
     logger_debug "Instantiating uploader." "req-1";
     new_Uploader (Some 1024);
     logger_debug
       "Waiting for socket connection before beginning remote download."
       "req-1";
     uploader_onSocketReady (on_socket_ready Sample.import_png);
     res_status 200;
     res_json [("token", JString "t0")];
     logger_debug "Socket connection received. Starting remote download."
       "req-1";
     request {| uri := Some "https://example.com/a.png";
                method := "GET";
                followRedirect :=
                  getRedirectEvaluator (Some "https://example.com/a.png") true;
                agentClass := getProtectedHttpAgent "https:" true |};
     onDataChunk None (Some "ab");
     onDataChunk None None].
Proof. reflexivity. Qed.

Example status_error_404 :
  callback_calls
    (fetch_trace Sample.healthy (Some "http://example.com/missing") true "t"
       [response_event 404; end_event])
  = [Failed {| err_message := "URL server responded with status: 404";
               err_status := None |};
     End].
Proof. reflexivity. Qed.

(** * Further properties of the controller *)

(** ** What the handlers always do *)

(** The same four ways, for the metadata handler's three. *)
Lemma meta_cases (E : collaborators) (req : express_request) :
  validateURL req.(body_url) req.(debug) = false
  \/ (validateURL req.(body_url) req.(debug) = true /\
      ((exists err, E.(getURLMeta) req.(body_url) (negb req.(debug)) = inl err)
       \/ (exists m, E.(getURLMeta) req.(body_url) (negb req.(debug)) = inr m))).
Proof.
  destruct (validateURL (body_url req) (debug req)); [right|left; reflexivity].
  split; [reflexivity|].
  destruct (getURLMeta E (body_url req) (negb (debug req))) as [err|m];
    [left; exists err|right; exists m]; reflexivity.
Qed.

(** Whatever the collaborators answer, either handler returns normally
    (a rejected metadata promise is caught), writes exactly one JSON body
    and sets the status at most once. *)
Theorem handlers_answer_exactly_once (E : collaborators)
    (req : express_request) :
  (snd (meta E req) = Return tt
   /\ count_effects is_res_json (effects (meta E req)) = 1%nat
   /\ (count_effects is_res_status (effects (meta E req)) <= 1)%nat)
  /\ (snd (get E req) = Return tt
      /\ count_effects is_res_json (effects (get E req)) = 1%nat
      /\ (count_effects is_res_status (effects (get E req)) <= 1)%nat).
Proof.
  split.
  - destruct (meta_cases E req) as [H|(H & [(err & Hm)|(m & Hm)])].
    + rewrite (meta_invalid E req H). cbn. auto.
    + rewrite (meta_failure E req err H Hm). cbn. auto.
    + rewrite (meta_success E req m H Hm). cbn. auto.
  - destruct (get_cases E req) as [H|(H & [(err & Hm)|(m & Hm & [Hu|Hu])])].
    + rewrite (get_invalid E req H). cbn. auto.
    + rewrite (get_meta_failure E req err H Hm). cbn. auto.
    + rewrite (get_uploader_error E req m H Hm Hu). cbn. auto.
    + rewrite (get_accepted E req m H Hm Hu). cbn. auto.
Qed.

(** The metadata handler only logs, resolves metadata (at most once) and
    answers: it never builds an uploader, never registers a readiness
    callback, never issues the download request and never calls a chunk
    callback. *)
Theorem meta_only_resolves_metadata (E : collaborators)
    (req : express_request) :
  forallb metadata_effect (effects (meta E req)) = true
  /\ (count_effects is_getURLMeta (effects (meta E req)) <= 1)%nat.
Proof.
  destruct (meta_cases E req) as [H|(H & [(err & Hm)|(m & Hm)])].
  - rewrite (meta_invalid E req H). cbn. auto.
  - rewrite (meta_failure E req err H Hm). cbn. auto.
  - rewrite (meta_success E req m H Hm). cbn. auto.
Qed.

Lemma get_registered_inv (E : collaborators) (req : express_request)
    (cb : callback) :
  registered (effects (get E req)) = Some cb ->
  validateURL req.(body_url) req.(debug) = true
  /\ exists m,
       E.(getURLMeta) req.(body_url) (negb req.(debug)) = inr m
       /\ (E.(Uploader) req m.(size)).(hasError) = false.
Proof.
  destruct (get_cases E req) as [H|(H & [(err & Hm)|(m & Hm & [Hu|Hu])])].
  - rewrite (get_invalid E req H). discriminate.
  - rewrite (get_meta_failure E req err H Hm). discriminate.
  - rewrite (get_uploader_error E req m H Hm Hu). discriminate.
  - intros _. split; [exact H|]. exists m. split; assumption.
Qed.

(** The import handler registers the readiness callback exactly when the
    URL is valid, metadata resolved and the uploader reports no error;
    the callback is the one of this request, and it is registered at most
    once. *)
Theorem get_registers_callback_iff (E : collaborators)
    (req : express_request) (cb : callback) :
  (registered (effects (get E req)) = Some cb
   <-> (cb = on_socket_ready req
        /\ validateURL req.(body_url) req.(debug) = true
        /\ exists m,
             E.(getURLMeta) req.(body_url) (negb req.(debug)) = inr m
             /\ (E.(Uploader) req m.(size)).(hasError) = false))
  /\ (count_effects is_onSocketReady (effects (get E req)) <= 1)%nat.
Proof.
  split; [split|].
  - intro Hr. split; [apply (get_registered E req); exact Hr|].
    apply (get_registered_inv E req cb); exact Hr.
  - intros (-> & H & m & Hm & Hu).
    rewrite (get_accepted E req m H Hm Hu). reflexivity.
  - destruct (get_cases E req) as [H|(H & [(err & Hm)|(m & Hm & [Hu|Hu])])].
    + rewrite (get_invalid E req H). cbn. auto.
    + rewrite (get_meta_failure E req err H Hm). cbn. auto.
    + rewrite (get_uploader_error E req m H Hm Hu). cbn. auto.
    + rewrite (get_accepted E req m H Hm Hu). cbn. auto.
Qed.

(** When metadata resolution fails during an import, the handler answers
    like the metadata handler does (the carried status or 500, the fixed
    body), builds no uploader, and nothing happens afterwards. *)
Theorem get_resolver_failure (E : collaborators) (req : express_request)
    (err : Error) :
  validateURL req.(body_url) req.(debug) = true ->
  E.(getURLMeta) req.(body_url) (negb req.(debug)) = inl err ->
  exists code,
    (forall evs,
        import_trace E req evs =
        [logger_debug "URL file import handler running" req.(id);
         call_getURLMeta req.(body_url) (negb req.(debug));
         logger_error err "controller.url.get.error" req.(id);
         res_status code;
         res_json [("message", JString "failed to fetch URL metadata")]])
    /\ (err.(err_status) = None -> code = 500)
    /\ (forall s, err.(err_status) = Some s -> s <> 0 -> code = s)
    /\ code <> 0.
Proof.
  intros H Hm. exists (status_or err.(err_status) 500).
  pose proof (get_meta_failure E req err H Hm) as Hg.
  split.
  - intro evs. unfold import_trace. rewrite run_idle.
    + unfold start. rewrite Hg. reflexivity.
    + reflexivity.
    + left. unfold start. rewrite Hg. reflexivity.
  - unfold status_or. repeat split.
    + intros ->. reflexivity.
    + intros s -> Hs. apply Z.eqb_neq in Hs. rewrite Hs. reflexivity.
    + destruct (err_status err) as [s|]; [|discriminate].
      destruct (Z.eqb_spec s 0); [discriminate|assumption].
Qed.

Lemma get_resolver_failure_witness :
  import_trace Sample.unreachable Sample.import_png
    [socket_ready; transport (response_event 200)]
  = [logger_debug "URL file import handler running" "req-1";
     call_getURLMeta (Some "https://example.com/a.png") true;
     logger_error Sample.not_found "controller.url.get.error" "req-1";
     res_status 404;
     res_json [("message", JString "failed to fetch URL metadata")]].
Proof.
  destruct (get_resolver_failure Sample.unreachable Sample.import_png
              Sample.not_found eq_refl eq_refl) as [code [Ht [_ [Hs _]]]].
  rewrite Ht. rewrite (Hs 404 eq_refl ltac:(discriminate)). reflexivity.
Defined.

(** The uploader of an import is built only once metadata has resolved,
    and with the size that was resolved. *)
Theorem get_builds_uploader_with_resolved_size (E : collaborators)
    (req : express_request) (sz : option Z) :
  In (new_Uploader sz) (effects (get E req)) ->
  validateURL req.(body_url) req.(debug) = true
  /\ exists m,
       E.(getURLMeta) req.(body_url) (negb req.(debug)) = inr m
       /\ sz = m.(size).
Proof.
  destruct (get_cases E req) as [H|(H & [(err & Hm)|(m & Hm & [Hu|Hu])])].
  - rewrite (get_invalid E req H). cbn. intuition discriminate.
  - rewrite (get_meta_failure E req err H Hm). cbn. intuition discriminate.
  - rewrite (get_uploader_error E req m H Hm Hu). cbn.
    intros Hin. split; [exact H|]. exists m. split; [exact Hm|].
    intuition congruence.
  - rewrite (get_accepted E req m H Hm Hu). cbn.
    intros Hin. split; [exact H|]. exists m. split; [exact Hm|].
    intuition congruence.
Qed.

Lemma get_builds_uploader_with_resolved_size_witness :
  In (new_Uploader (Some 1024)) (effects (get Sample.healthy Sample.import_png))
  /\ exists m,
       Sample.healthy.(getURLMeta) (Some "https://example.com/a.png") true = inr m
       /\ Some 1024 = m.(size).
Proof.
  assert (Hin : In (new_Uploader (Some 1024))
                   (effects (get Sample.healthy Sample.import_png)))
    by (vm_compute; tauto).
  split; [exact Hin|].
  exact (proj2 (get_builds_uploader_with_resolved_size Sample.healthy
                  Sample.import_png (Some 1024) Hin)).
Defined.

(** ** After the handler has answered *)

Lemma run_callback_effects (E : collaborators) (req : express_request) :
  (exists p,
      E.(URL_protocol) req.(body_url) = Some p /\
      run_callback E (on_socket_ready req) =
      ([logger_debug "Socket connection received. Starting remote download."
          req.(id);
        request {| uri := req.(body_url);
                   method := "GET";
                   followRedirect :=
                     getRedirectEvaluator req.(body_url) (negb req.(debug));
                   agentClass :=
                     getProtectedHttpAgent p (negb req.(debug)) |}],
       Return {| session_traceId := req.(id); data_listener := false |}))
  \/ (E.(URL_protocol) req.(body_url) = None /\
      exists e,
        run_callback E (on_socket_ready req) =
        ([logger_debug "Socket connection received. Starting remote download."
            req.(id)], Throw e)).
Proof.
  unfold run_callback.
  destruct (downloadURL_cases E (body_url req) (negb (debug req)) (id req))
    as [(p & Hp & ->)|(Hp & e & ->)].
  - left. exists p. split; [exact Hp|reflexivity].
  - right. split; [exact Hp|]. exists e. reflexivity.
Qed.

Lemma listener_is_download_effect (s : session) (ev : transport_event) :
  forallb download_effect (fst (on_event s ev)) = true.
Proof.
  destruct ev as [statusCode|chunk| |err]; simpl.
  - destruct (statusCode >=? 300); reflexivity.
  - destruct (data_listener s); reflexivity.
  - reflexivity.
  - reflexivity.
Qed.

Lemma step_extends (E : collaborators) (sys : system) (ev : env_event) :
  exists t,
    (step E sys ev).(trace) = sys.(trace) ++ t
    /\ forallb download_effect t = true.
Proof.
  destruct ev as [|tev]; simpl.
  - destruct (waiting sys) as [[req]|].
    + destruct (run_callback_effects E req)
        as [(p & _ & ->)|(_ & e & ->)]; simpl; eexists; split; reflexivity.
    + exists []. rewrite app_nil_r. split; reflexivity.
  - destruct (fetch sys) as [s|].
    + pose proof (listener_is_download_effect s tev) as Hl.
      destruct (on_event s tev) as [t s']. simpl in *.
      exists t. split; [reflexivity|exact Hl].
    + exists []. rewrite app_nil_r. split; reflexivity.
Qed.

Lemma run_extends (E : collaborators) (evs : list env_event) :
  forall sys,
    exists rest,
      (run E sys evs).(trace) = sys.(trace) ++ rest
      /\ forallb download_effect rest = true.
Proof.
  induction evs as [|ev evs IH]; intro sys.
  - exists []. rewrite app_nil_r. split; reflexivity.
  - unfold run. simpl. fold (run E (step E sys ev) evs).
    destruct (IH (step E sys ev)) as (rest & Hr & Hd).
    destruct (step_extends E sys ev) as (t & Ht & Htd).
    exists (t ++ rest). rewrite Hr, Ht, app_assoc. split; [reflexivity|].
    rewrite forallb_app, Htd, Hd. reflexivity.
Qed.

Lemma download_never_answers (t : list effect) :
  forallb download_effect t = true -> filter answers_client t = [].
Proof.
  induction t as [|e t IH]; [reflexivity|].
  simpl. intro H. apply andb_prop in H as [He Ht].
  destruct e; simpl in *; try discriminate; apply IH; exact Ht.
Qed.

(** Whatever happens once the handler has run, an import request only
    appends download activity (logging, the request, chunk callbacks) to
    what the handler did; so the answer the client gets is the handler's
    alone, and the transfer never writes to the HTTP response, resolves
    metadata again or builds another uploader. *)
Theorem import_continues_with_download_only (E : collaborators)
    (req : express_request) (evs : list env_event) :
  exists rest,
    import_trace E req evs = effects (get E req) ++ rest
    /\ forallb download_effect rest = true
    /\ filter answers_client (import_trace E req evs)
       = filter answers_client (effects (get E req)).
Proof.
  destruct (run_extends E evs (start (get E req))) as (rest & Hr & Hd).
  exists rest. unfold import_trace. rewrite Hr. simpl.
  split; [reflexivity|]. split; [exact Hd|].
  rewrite filter_app, (download_never_answers rest Hd), app_nil_r.
  reflexivity.
Qed.

Lemma run_no_fetch (E : collaborators) (req : express_request)
    (evs : list env_event) :
  E.(URL_protocol) req.(body_url) = None ->
  forall sys,
    sys.(fetch) = None ->
    (forall cb, sys.(waiting) = Some cb -> cb = on_socket_ready req) ->
    no_fetch_effect sys.(trace) = true ->
    no_fetch_effect (run E sys evs).(trace) = true.
Proof.
  intro Hp.
  induction evs as [|ev evs IH]; intros sys Hf Hw Ht; [exact Ht|].
  unfold run. simpl. fold (run E (step E sys ev) evs).
  destruct ev as [|tev]; simpl.
  - destruct (waiting sys) as [cb|] eqn:Hws.
    + rewrite (Hw cb eq_refl).
      destruct (run_callback_effects E req)
        as [(p & Hq & _)|(_ & e & ->)]; [congruence|].
      apply IH; simpl.
      * exact Hf.
      * discriminate.
      * unfold no_fetch_effect in *. rewrite forallb_app, Ht. reflexivity.
    + apply IH; [assumption|intros cb Hcb; congruence|assumption].
  - rewrite Hf. apply IH; assumption.
Qed.

(** When the URL constructor rejects the request's URL, the readiness
    callback throws before [request] is called: the import never issues a
    request and never calls the chunk callback, whatever happens. *)
Theorem import_unparsable_url_never_fetches (E : collaborators)
    (req : express_request) (evs : list env_event) :
  E.(URL_protocol) req.(body_url) = None ->
  no_fetch_effect (import_trace E req evs) = true.
Proof.
  intro Hp. unfold import_trace. apply (run_no_fetch E req evs Hp).
  - reflexivity.
  - intros cb Hcb. apply (get_registered E req). exact Hcb.
  - apply get_no_fetch_effect.
Qed.

Lemma import_unparsable_url_never_fetches_witness :
  no_fetch_effect
    (import_trace
       {| getURLMeta := fun _ _ => inr Sample.png;
          Uploader := fun _ _ => Sample.accepted;
          URL_protocol := fun _ => None |}
       Sample.import_png
       [socket_ready; transport (response_event 200);
        transport (data_event "ab"); transport end_event]) = true.
Proof.
  apply (import_unparsable_url_never_fetches
           {| getURLMeta := fun _ _ => inr Sample.png;
              Uploader := fun _ _ => Sample.accepted;
              URL_protocol := fun _ => None |}
           Sample.import_png).
  reflexivity.
Defined.

Lemma js_url_eqb_refl (u : js_url) : js_url_eqb u u = true.
Proof. destruct u as [s|]; [apply String.eqb_refl|reflexivity]. Qed.

Lemma js_url_eqb_eq (a b : js_url) : js_url_eqb a b = true -> a = b.
Proof.
  destruct a as [x|], b as [y|]; simpl; try discriminate; [|reflexivity].
  intro H. apply String.eqb_eq in H. congruence.
Qed.

Lemma import_on_validated_url (E : collaborators) (req : express_request)
    (evs : list env_event) :
  forallb (on_validated_url req) (import_trace E req evs) = true.
Proof.
  unfold import_trace. apply run_forallb.
  - intros s ev. destruct ev as [statusCode|chunk| |err]; simpl.
    + destruct (statusCode >=? 300); reflexivity.
    + destruct (data_listener s); reflexivity.
    + reflexivity.
    + reflexivity.
  - destruct (get_cases E req) as [H|(H & [(err & Hm)|(m & Hm & [Hu|Hu])])].
    + rewrite (get_invalid E req H). reflexivity.
    + rewrite (get_meta_failure E req err H Hm). simpl.
      rewrite js_url_eqb_refl, H. reflexivity.
    + rewrite (get_uploader_error E req m H Hm Hu). simpl.
      rewrite js_url_eqb_refl, H. reflexivity.
    + rewrite (get_accepted E req m H Hm Hu). simpl.
      rewrite js_url_eqb_refl, H. reflexivity.
  - intros cb Hcb. simpl in Hcb.
    pose proof (get_registered_inv E req cb Hcb) as [H _].
    apply (get_registered E req) in Hcb. subst cb. unfold effects.
    destruct (run_callback_effects E req)
      as [(p & _ & ->)|(_ & e & ->)]; simpl; [|reflexivity].
    rewrite js_url_eqb_refl, H. reflexivity.
Qed.

(** Metadata resolution and the download are only ever attempted on the
    URL of the request itself, and only when that URL passed
    [validateURL] (so it is a non-empty string); the download is a GET. *)
Theorem import_acts_on_validated_url_only (E : collaborators)
    (req : express_request) (evs : list env_event) :
  (forall url b,
      In (call_getURLMeta url b) (import_trace E req evs) ->
      url = req.(body_url)
      /\ validateURL req.(body_url) req.(debug) = true)
  /\ (forall opts,
         In (request opts) (import_trace E req evs) ->
         opts.(uri) = req.(body_url)
         /\ opts.(method) = "GET"
         /\ validateURL req.(body_url) req.(debug) = true
         /\ exists s, req.(body_url) = Some s /\ s <> "").
Proof.
  pose proof (import_on_validated_url E req evs) as Hall. split.
  - intros url b Hin.
    pose proof (forallb_In_true _ _ _ Hall Hin) as H. simpl in H.
    apply andb_prop in H as [H1 H2].
    split; [apply js_url_eqb_eq; exact H1|exact H2].
  - intros opts Hin.
    pose proof (forallb_In_true _ _ _ Hall Hin) as H. simpl in H.
    apply andb_prop in H as [H12 H3]. apply andb_prop in H12 as [H1 H2].
    split; [apply js_url_eqb_eq; exact H1|].
    split; [apply String.eqb_eq; exact H2|].
    split; [exact H3|].
    unfold validateURL, falsy in H3.
    destruct (body_url req) as [s|]; [|discriminate].
    exists s. split; [reflexivity|].
    intros ->. discriminate.
Qed.

(** ** One fetch *)

Lemma stream_chunks (chunks : list Chunk) :
  forall s tail,
    data_listener s = true ->
    callback_calls (fst (on_events s (map data_event chunks ++ tail)))
    = map Data chunks ++ callback_calls (fst (on_events s tail)).
Proof.
  induction chunks as [|c chunks IH]; intros s tail Hs; [reflexivity|].
  simpl map. simpl app. rewrite on_events_cons, callback_calls_app.
  simpl. rewrite Hs. simpl. f_equal. apply IH. exact Hs.
Qed.

(** After a response below 300, the body fragments reach the callback one
    call each, in arrival order, none lost and none repeated, followed by
    the end-of-stream sentinel or by the transport's error. *)
Theorem downloadURL_streams_in_order (E : collaborators) (url : js_url)
    (blockLocalIPs : bool) (traceId : string) (protocol : string)
    (statusCode : Z) (chunks : list Chunk) :
  E.(URL_protocol) url = Some protocol ->
  statusCode < 300 ->
  callback_calls
    (fetch_trace E url blockLocalIPs traceId
       (response_event statusCode :: map data_event chunks ++ [end_event]))
  = map Data chunks ++ [End]
  /\ forall err,
       callback_calls
         (fetch_trace E url blockLocalIPs traceId
            (response_event statusCode
               :: map data_event chunks ++ [error_event err]))
       = map Data chunks ++ [Failed err].
Proof.
  intros Hp Hs.
  assert (Hlt : (statusCode >=? 300) = false).
  { destruct (statusCode >=? 300) eqn:H; [|reflexivity].
    apply Z.geb_le in H. lia. }
  split; [|intro err];
    rewrite (fetch_trace_calls E url blockLocalIPs traceId protocol _ Hp);
    rewrite on_events_cons, callback_calls_app; simpl; rewrite Hlt; simpl;
    rewrite stream_chunks by reflexivity; reflexivity.
Qed.

Lemma downloadURL_streams_in_order_witness :
  callback_calls
    (fetch_trace Sample.healthy (Some "https://example.com/a.png") true "t"
       (response_event 299 :: map data_event ["ab"; "cd"; "ab"] ++ [end_event]))
  = map Data ["ab"; "cd"; "ab"] ++ [End].
Proof.
  apply (downloadURL_streams_in_order Sample.healthy
           (Some "https://example.com/a.png") true "t" "https:" 299
           ["ab"; "cd"; "ab"]).
  - reflexivity.
  - lia.
Defined.

Lemma closed_stream_no_data (evs : list transport_event) :
  forall s,
    data_listener s = false ->
    existsb opens_stream evs = false ->
    no_data (callback_calls (fst (on_events s evs))) = true.
Proof.
  induction evs as [|ev evs IH]; intros s Hs Ho; [reflexivity|].
  rewrite on_events_cons, callback_calls_app, no_data_app.
  simpl in Ho. apply orb_false_elim in Ho as [Hev Ho].
  destruct ev as [statusCode|chunk| |err]; simpl in *.
  - assert (Hge : (statusCode >=? 300) = true).
    { apply Z.geb_le. apply Z.ltb_ge in Hev. lia. }
    rewrite Hge. simpl. apply IH; [reflexivity|exact Ho].
  - rewrite Hs. simpl. apply IH; assumption.
  - apply IH; assumption.
  - apply IH; assumption.
Qed.

(** Unless a response below 300 has arrived, no data chunk is ever handed
    to the callback, whatever else the transport reports and in whatever
    order. *)
Theorem downloadURL_no_data_before_success (E : collaborators)
    (url : js_url) (blockLocalIPs : bool) (traceId : string)
    (evs : list transport_event) :
  existsb opens_stream evs = false ->
  no_data (callback_calls (fetch_trace E url blockLocalIPs traceId evs)) = true.
Proof.
  intro Ho.
  destruct (URL_protocol E url) as [p|] eqn:Hp.
  - rewrite (fetch_trace_calls E url blockLocalIPs traceId p evs Hp).
    apply closed_stream_no_data; [reflexivity|exact Ho].
  - rewrite fetch_trace_no_request by exact Hp. reflexivity.
Qed.

Lemma downloadURL_no_data_before_success_witness :
  no_data
    (callback_calls
       (fetch_trace Sample.healthy (Some "https://example.com/a.png") true "t"
          [data_event "ab"; response_event 300; data_event "cd";
           response_event 503; data_event "ef"; end_event])) = true.
Proof.
  apply (downloadURL_no_data_before_success Sample.healthy
           (Some "https://example.com/a.png") true "t"
           [data_event "ab"; response_event 300; data_event "cd";
            response_event 503; data_event "ef"; end_event]).
  reflexivity.
Defined.

Lemma listeners_never_request (evs : list transport_event) :
  forall s, filter is_request (fst (on_events s evs)) = [].
Proof.
  induction evs as [|ev evs IH]; intro s; [reflexivity|].
  rewrite on_events_cons, filter_app, IH, app_nil_r.
  destruct ev as [statusCode|chunk| |err]; simpl.
  - destruct (statusCode >=? 300); reflexivity.
  - destruct (data_listener s); reflexivity.
  - reflexivity.
  - reflexivity.
Qed.

(** One call of [downloadURL] issues exactly one request, a GET of the
    given URL, when the URL constructor accepts the URL, and none when it
    throws; the listeners never issue another, whatever the transport
    reports. *)
Theorem downloadURL_issues_one_request (E : collaborators) (url : js_url)
    (blockLocalIPs : bool) (traceId : string)
    (evs : list transport_event) :
  filter is_request (fetch_trace E url blockLocalIPs traceId evs)
  = match E.(URL_protocol) url with
    | Some protocol =>
        [request {| uri := url;
                    method := "GET";
                    followRedirect := getRedirectEvaluator url blockLocalIPs;
                    agentClass :=
                      getProtectedHttpAgent protocol blockLocalIPs |}]
    | None => []
    end.
Proof.
  unfold fetch_trace.
  destruct (downloadURL_cases E url blockLocalIPs traceId)
    as [(p & Hp & ->)|(Hp & e & ->)]; rewrite Hp; [|reflexivity].
  rewrite filter_app, listeners_never_request. reflexivity.
Qed.

Lemma on_event_keeps_traceId (s : session) (ev : transport_event) :
  session_traceId (snd (on_event s ev)) = session_traceId s.
Proof.
  destruct ev as [statusCode|chunk| |err]; simpl.
  - destruct (statusCode >=? 300); reflexivity.
  - destruct (data_listener s); reflexivity.
  - reflexivity.
  - reflexivity.
Qed.

Lemma listeners_log_transport_errors (evs : list transport_event) :
  forall s,
    filter is_logger_error (fst (on_events s evs))
    = map (fun err =>
             logger_error err "controller.url.download.error"
               (session_traceId s))
          (transport_errors evs).
Proof.
  induction evs as [|ev evs IH]; intro s; [reflexivity|].
  rewrite on_events_cons, filter_app, IH, on_event_keeps_traceId.
  destruct ev as [statusCode|chunk| |err]; simpl.
  - destruct (statusCode >=? 300); reflexivity.
  - destruct (data_listener s); reflexivity.
  - reflexivity.
  - reflexivity.
Qed.

(** A fetch logs exactly the errors the transport reports, each once, in
    order and under the trace id it was started with; an error made from a
    response status of 300 or more goes to the callback without a log
    entry. *)
Theorem downloadURL_logs_transport_errors (E : collaborators) (url : js_url)
    (blockLocalIPs : bool) (traceId : string)
    (evs : list transport_event) :
  filter is_logger_error (fetch_trace E url blockLocalIPs traceId evs)
  = match E.(URL_protocol) url with
    | Some _ =>
        map (fun err =>
               logger_error err "controller.url.download.error" traceId)
            (transport_errors evs)
    | None => []
    end.
Proof.
  unfold fetch_trace.
  destruct (downloadURL_cases E url blockLocalIPs traceId)
    as [(p & Hp & ->)|(Hp & e & ->)]; rewrite Hp; [|reflexivity].
  rewrite filter_app, listeners_log_transport_errors. reflexivity.
Qed.

(** ** A refused response *)

Lemma dropped_chunks (chunks : list Chunk) :
  forall s tail,
    data_listener s = false ->
    callback_calls (fst (on_events s (map data_event chunks ++ tail)))
    = callback_calls (fst (on_events s tail)).
Proof.
  induction chunks as [|c chunks IH]; intros s tail Hs; [reflexivity|].
  simpl map. simpl app. rewrite on_events_cons, callback_calls_app.
  simpl. rewrite Hs. simpl. apply IH. exact Hs.
Qed.

(** After a response of 300 or more the body of that response is dropped,
    but the transport's closing event is still forwarded: the callback
    receives the status error and then the end-of-stream sentinel (or the
    transport's error), and nothing else. *)
Theorem downloadURL_refused_response_calls (E : collaborators)
    (url : js_url) (blockLocalIPs : bool) (traceId : string)
    (protocol : string) (statusCode : Z) (chunks : list Chunk) :
  E.(URL_protocol) url = Some protocol ->
  300 <= statusCode ->
  callback_calls
    (fetch_trace E url blockLocalIPs traceId
       (response_event statusCode :: map data_event chunks ++ [end_event]))
  = [Failed (status_error statusCode); End]
  /\ forall err,
       callback_calls
         (fetch_trace E url blockLocalIPs traceId
            (response_event statusCode
               :: map data_event chunks ++ [error_event err]))
       = [Failed (status_error statusCode); Failed err].
Proof.
  intros Hp Hs.
  assert (Hge : (statusCode >=? 300) = true) by (apply Z.geb_le; lia).
  split; [|intro err];
    rewrite (fetch_trace_calls E url blockLocalIPs traceId protocol _ Hp);
    rewrite on_events_cons, callback_calls_app; simpl; rewrite Hge; simpl;
    rewrite dropped_chunks by reflexivity; reflexivity.
Qed.

Lemma downloadURL_refused_response_calls_witness :
  callback_calls
    (fetch_trace Sample.healthy (Some "https://example.com/gone") true "t"
       (response_event 300 :: map data_event ["<html>"; "</html>"] ++ [end_event]))
  = [Failed {| err_message := "URL server responded with status: 300";
               err_status := None |};
     End].
Proof.
  apply (downloadURL_refused_response_calls Sample.healthy
           (Some "https://example.com/gone") true "t" "https:" 300
           ["<html>"; "</html>"]).
  - reflexivity.
  - lia.
Defined.
